(** * ai_sorter.py: a colour-sorting conveyor, gate actuator and controller

    A shallow embedding of [src/ai_sorter.py].  Each Python class is a module
    holding a record for the instance attributes and one function per method;
    a method that mutates [self] returns the new [self] (paired with the
    Python return value when there is one).

    Numbers.  Python floats are IEEE 754 binary64, as are Rocq's primitive
    floats, so [+=  0.5], [+= 0.1], [-= 0.1] and the comparisons are the very
    operations the interpreter performs.  The attributes that start out as the
    Python int [0] (positions, targets) are embedded as the float [0]: an int
    that meets a float in [+] or [<] is first converted, exactly for the small
    values that occur here.  Pixel counts and identifiers are Python ints,
    embedded as [Z]. *)

From Stdlib Require Import ZArith List Bool Lia.
From Stdlib Require Import PrimFloat FloatOps FloatAxioms SpecFloat.
From Stdlib Require Uint63.
From Stdlib Require Import Permutation.
From stdpp Require Import base option list gmap.
Import ListNotations.

Set Warnings "-inexact-float".
Local Open Scope Z_scope.

(** ** ObjectColor (lines 8-12) *)

Inductive ObjectColor : Type :=
| RED
| GREEN
| BLUE
| UNKNOWN.

(** The [Enum] value of each member, and the member of a value (used only to
    number the members, on the values 1 to 4). *)
Definition ObjectColor_value (c : ObjectColor) : Z :=
  match c with
  | RED => 1
  | GREEN => 2
  | BLUE => 3
  | UNKNOWN => 4
  end.

Definition ObjectColor_of_value (v : Z) : ObjectColor :=
  match v with
  | 1 => RED
  | 2 => GREEN
  | 3 => BLUE
  | _ => UNKNOWN
  end.

(** Iteration order of [for color in ObjectColor]: definition order. *)
Definition ObjectColor_members : list ObjectColor := [RED; GREEN; BLUE; UNKNOWN].

Global Instance ObjectColor_eq_dec : EqDecision ObjectColor.
Proof. solve_decision. Defined.

Global Instance ObjectColor_countable : Countable ObjectColor.
Proof.
  refine (inj_countable' ObjectColor_value ObjectColor_of_value _).
  intros c. destruct c; reflexivity.
Defined.

(** ** The dict appended by [add_object] (lines 21-25)

    The three keys are fixed, so the dict is a record. *)
Module ObjectToken.

Record t : Type := mk {
  color : ObjectColor;
  position : float;
  id : Z
}.

End ObjectToken.

(** ** VirtualConveyor (lines 14-31) *)
Module VirtualConveyor.

Record t : Type := mk {
  position : float;
  speed : float;
  objects : list ObjectToken.t
}.

(** [__init__] *)
Definition init : t :=
  {| position := 0%float; speed := 0.5%float; objects := [] |}.

(** The possible results of [random.randint(a, b)]. *)
Definition randint (a b r : Z) : Prop := a <= r <= b.

(** [add_object(color)]; [rnd] is the value [random.randint(1000, 9999)]
    returned in this call. *)
Definition add_object (self : t) (color : ObjectColor) (rnd : Z) : t :=
  {| position := position self;
     speed := speed self;
     objects := objects self ++
       [ {| ObjectToken.color := color;
            ObjectToken.position := 0%float;
            ObjectToken.id := rnd |} ] |}.

(** [obj["position"] += self.speed] on one dict. *)
Definition advance (speed : float) (obj : ObjectToken.t) : ObjectToken.t :=
  {| ObjectToken.color := ObjectToken.color obj;
     ObjectToken.position := (ObjectToken.position obj + speed)%float;
     ObjectToken.id := ObjectToken.id obj |}.

(** The condition of the list comprehension, [obj["position"] < 100]. *)
Definition on_belt (obj : ObjectToken.t) : bool :=
  PrimFloat.ltb (ObjectToken.position obj) 100%float.

(** [update()]: the new [self] and the returned list.  The comprehension
    builds a new list and [self.objects] is not assigned to.  The returned
    list holds the dicts of [self.objects] themselves; the loop reads it only
    before the next call, so their values at the return are what it sees. *)
Definition update (self : t) : t * list ObjectToken.t :=
  let position' := (position self + speed self)%float in
  let objects' := map (advance (speed self)) (objects self) in
  ({| position := position'; speed := speed self; objects := objects' |},
   List.filter on_belt objects').

(** A call of one of the two methods, and a sequence of calls. *)
Inductive call : Type :=
| AddObject (color : ObjectColor) (rnd : Z)
| Update.

Definition do_call (self : t) (c : call) : t :=
  match c with
  | AddObject color rnd => add_object self color rnd
  | Update => fst (update self)
  end.

Definition do_calls (self : t) (cs : list call) : t :=
  fold_left do_call cs self.

(** [n] consecutive calls of [update()], keeping the last returned list
    ([[]] stands for "no call yet"). *)
Fixpoint updates (n : nat) (self : t) : t * list ObjectToken.t :=
  match n with
  | O => (self, [])
  | S n' => update (fst (updates n' self))
  end.

End VirtualConveyor.

(** ** VirtualActuator (lines 33-47) *)
Module VirtualActuator.

Record t : Type := mk {
  position : float;
  target : float
}.

Definition init : t := {| position := 0%float; target := 0%float |}.

Definition set_position (self : t) (pos : float) : t :=
  {| position := position self; target := pos |}.

(** [update()]: the new [self] and the returned position. *)
Definition update (self : t) : t * float :=
  let position' :=
    if PrimFloat.ltb (position self) (target self) then
      (position self + 0.1)%float
    else if PrimFloat.ltb (target self) (position self) then
      (position self - 0.1)%float
    else position self in
  ({| position := position'; target := target self |}, position').

(** [n] consecutive calls of [update()]. *)
Fixpoint updates (n : nat) (self : t) : t :=
  match n with
  | O => self
  | S n' => fst (update (updates n' self))
  end.

End VirtualActuator.

(** ** OpenCV

    [cv2.cvtColor(frame, cv2.COLOR_BGR2HSV)] is a library routine; the
    development is parametric in it.  Only the pixels matter to [detect], so
    the HSV image is the list of its pixels, each a triple of channel values.
    The routine raises [cv2.error] on an image without pixels; the function
    here is total, so what is said of a frame whose pixel list is empty says
    nothing of the code. *)
Definition pixel : Type := (Z * Z * Z)%type.

Class OpenCV : Type := {
  image : Type;
  cvtColor_BGR2HSV : image -> list pixel
}.

(** [cv2.inRange(src, lowerb, upperb)]: 255 where every channel lies within
    the bounds (both inclusive), 0 elsewhere. *)
Definition inRange (src : list pixel) (lowerb upperb : pixel) : list Z :=
  map (fun p =>
         match p, lowerb, upperb with
         | (h, s, v), (lh, ls, lv), (uh, us, uv) =>
             if (lh <=? h) && (h <=? uh) &&
                (ls <=? s) && (s <=? us) &&
                (lv <=? v) && (v <=? uv)
             then 255 else 0
         end) src.

(** [cv2.countNonZero(mask)] *)
Definition countNonZero (mask : list Z) : Z :=
  Z.of_nat (length (List.filter (fun x => negb (x =? 0)) mask)).

(** ** AIColorDetector (lines 50-79) *)
Module AIColorDetector.

Record t : Type := mk {
  lower_red : pixel;
  upper_red : pixel;
  lower_green : pixel;
  upper_green : pixel;
  lower_blue : pixel;
  upper_blue : pixel
}.

Definition init : t :=
  {| lower_red := (0, 100, 100);
     upper_red := (10, 255, 255);
     lower_green := (40, 100, 100);
     upper_green := (80, 255, 255);
     lower_blue := (100, 100, 100);
     upper_blue := (140, 255, 255) |}.

(** The [if]/[elif] chain of lines 72-79 on the three counts. *)
Definition dominant (red_pixels green_pixels blue_pixels : Z) : ObjectColor :=
  if (red_pixels >? green_pixels) && (red_pixels >? blue_pixels) then RED
  else if (green_pixels >? red_pixels) && (green_pixels >? blue_pixels) then GREEN
  else if (blue_pixels >? red_pixels) && (blue_pixels >? green_pixels) then BLUE
  else UNKNOWN.

Section Detect.
Context `{OpenCV}.

Definition red_pixels (self : t) (frame : image) : Z :=
  countNonZero (inRange (cvtColor_BGR2HSV frame) (lower_red self) (upper_red self)).

Definition green_pixels (self : t) (frame : image) : Z :=
  countNonZero (inRange (cvtColor_BGR2HSV frame) (lower_green self) (upper_green self)).

Definition blue_pixels (self : t) (frame : image) : Z :=
  countNonZero (inRange (cvtColor_BGR2HSV frame) (lower_blue self) (upper_blue self)).

Definition detect (self : t) (frame : image) : ObjectColor :=
  dominant (red_pixels self frame) (green_pixels self frame) (blue_pixels self frame).

End Detect.

End AIColorDetector.

(** ** AutomatedSorter (lines 82-178) *)
Module AutomatedSorter.

Record t : Type := mk {
  conveyor : VirtualConveyor.t;
  gate : VirtualActuator.t;
  detector : AIColorDetector.t;
  target_color : ObjectColor;
  sorted_counts : gmap ObjectColor Z
}.

(** [__init__]; the virtual camera has no state of its own, its frames are
    inputs of the loop. *)
Definition init : t :=
  {| conveyor := VirtualConveyor.init;
     gate := VirtualActuator.init;
     detector := AIColorDetector.init;
     target_color := RED;
     sorted_counts := list_to_map (map (fun color => (color, 0)) ObjectColor_members) |}.

(** [counts[color] += 1]; [None] is Python's [KeyError]. *)
Definition increment (counts : gmap ObjectColor Z) (color : ObjectColor)
  : option (gmap ObjectColor Z) :=
  match counts !! color with
  | Some n => Some (<[color := n + 1]> counts)
  | None => None
  end.

(** [ord('q')], [ord('r')], [ord('g')], [ord('b')] *)
Definition ord_q : Z := 113.
Definition ord_r : Z := 114.
Definition ord_g : Z := 103.
Definition ord_b : Z := 98.

(** The key controls of lines 168-176 as far as [target_color] goes. *)
Definition key_target (key : Z) (target_color : ObjectColor) : ObjectColor :=
  if key =? ord_q then target_color
  else if key =? ord_r then RED
  else if key =? ord_g then GREEN
  else if key =? ord_b then BLUE
  else target_color.

Section Run.
Context `{OpenCV}.

(** What one pass of the loop reads from outside: the frame of [self.cap()],
    the random spawn ([None] when [random.random() < 0.03] is false, else the
    chosen colour and the identifier drawn in [add_object]) and the result of
    [cv2.waitKey(30)]. *)
Record inputs : Type := mk_inputs {
  frame : image;
  spawn : option (ObjectColor * Z);
  key : Z
}.

(** What one pass hands to the visualisation. *)
Record shown : Type := mk_shown {
  gate_pos : float;
  active_objects : list ObjectToken.t
}.

(** Steps 1 to 4 of the loop body (lines 111-125). *)
Definition control (self : t) (frm : image) : option (t * shown) :=
  let color := AIColorDetector.detect (detector self) frm in
  match
    (if decide (color = target_color self) then
       match increment (sorted_counts self) color with
       | Some counts => Some (VirtualActuator.set_position (gate self) 1%float, counts)
       | None => None
       end
     else Some (VirtualActuator.set_position (gate self) 0%float, sorted_counts self))
  with
  | None => None
  | Some (gate1, counts) =>
      let '(gate2, gate_pos) := VirtualActuator.update gate1 in
      let '(conveyor2, active_objects) := VirtualConveyor.update (conveyor self) in
      Some ({| conveyor := conveyor2;
               gate := gate2;
               detector := detector self;
               target_color := target_color self;
               sorted_counts := counts |},
            {| gate_pos := gate_pos; active_objects := active_objects |})
  end.

(** The random spawn of lines 160-165. *)
Definition spawn_object (self : t) (sp : option (ObjectColor * Z)) : t :=
  match sp with
  | Some (color, rnd) =>
      {| conveyor := VirtualConveyor.add_object (conveyor self) color rnd;
         gate := gate self;
         detector := detector self;
         target_color := target_color self;
         sorted_counts := sorted_counts self |}
  | None => self
  end.

(** The key controls of lines 168-176; the flag is [true] on [break]. *)
Definition key_controls (self : t) (k : Z) : t * bool :=
  ({| conveyor := conveyor self;
      gate := gate self;
      detector := detector self;
      target_color := key_target k (target_color self);
      sorted_counts := sorted_counts self |},
   k =? ord_q).

(** One pass of [while True]. *)
Definition tick (self : t) (i : inputs) : option (t * shown * bool) :=
  match control self (frame i) with
  | None => None
  | Some (self1, out) =>
      let '(self2, stop) := key_controls (spawn_object self1 (spawn i)) (key i) in
      Some (self2, out, stop)
  end.

(** [run()] on the inputs of the first passes: the state when the inputs are
    used up or the loop has left through [break]. *)
Fixpoint run (self : t) (ins : list inputs) : option t :=
  match ins with
  | [] => Some self
  | i :: ins' =>
      match tick self i with
      | None => None
      | Some (self', _, true) => Some self'
      | Some (self', _, false) => run self' ins'
      end
  end.

(** The inputs [run] can really get: a spawn is one of the three colours with
    an identifier from [random.randint(1000, 9999)]. *)
Definition valid_inputs (i : inputs) : Prop :=
  match spawn i with
  | Some (color, rnd) => color <> UNKNOWN /\ VirtualConveyor.randint 1000 9999 rnd
  | None => True
  end.

End Run.

End AutomatedSorter.

(** ** The virtual camera (lines 93-104)

    A BGR image is the list of its rows, [frame[y][x]], each pixel a triple
    (blue, green, red). *)
Definition bgr_image : Type := list (list pixel).

(** [np.zeros((rows, cols, 3), dtype=np.uint8)] *)
Definition np_zeros (rows cols : nat) : bgr_image :=
  repeat (repeat (0, 0, 0) cols) rows.

(** [f] applied to each element together with its index, counted from [i]. *)
Fixpoint map_indexed {A B : Type} (f : Z -> A -> B) (i : Z) (l : list A) : list B :=
  match l with
  | [] => []
  | a :: l' => f i a :: map_indexed f (i + 1) l'
  end.

(** [cv2.rectangle(img, pt1, pt2, color, -1)]: the rectangle with the opposite
    corners [pt1] and [pt2], both given as (x, y) and both inside it, filled
    with [color]; what falls outside the image is dropped. *)
Definition rectangle (img : bgr_image) (pt1 pt2 : Z * Z) (color : pixel) : bgr_image :=
  map_indexed
    (fun y row =>
       map_indexed
         (fun x p =>
            if (Z.min (fst pt1) (fst pt2) <=? x) && (x <=? Z.max (fst pt1) (fst pt2)) &&
               (Z.min (snd pt1) (snd pt2) <=? y) && (y <=? Z.max (snd pt1) (snd pt2))
            then color else p) 0 row) 0 img.

(** The list [random.choice] draws the rectangle colour from. *)
Definition camera_colors : list pixel := [(0, 0, 255); (0, 255, 0); (255, 0, 0)].

(** [generate_frame()]; [color] is the result of [random.choice]. *)
Definition generate_frame (color : pixel) : bgr_image :=
  rectangle (np_zeros 300 400) (50, 50) (350, 250) color.

(** [cv2.cvtColor] converts pixel by pixel: an [OpenCV] over BGR images from
    the conversion of one pixel. *)
Definition pixelwise (cvt : pixel -> pixel) : OpenCV :=
  {| image := bgr_image;
     cvtColor_BGR2HSV := fun frame => map cvt (concat frame) |}.

(** ** The drawing of a pass (lines 134-146)

    [int(x)] on a float: the integer part, towards zero; [None] stands for the
    [OverflowError] on an infinity and the [ValueError] on a NaN. *)
Definition int_of_float (x : float) : option Z :=
  match Prim2SF x with
  | S754_zero _ => Some 0
  | S754_finite s m e =>
      let magnitude := Z.shiftl (Z.pos m) e in
      Some (if s then - magnitude else magnitude)
  | S754_infinity _ => None
  | S754_nan => None
  end.

(** [x = int(50 + obj["position"] * 5)] *)
Definition object_x (obj : ObjectToken.t) : option Z :=
  int_of_float (50 + ObjectToken.position obj * 5)%float.

(** [color_map.get(obj["color"], (255, 255, 255))] *)
Definition color_map_get (color : ObjectColor) : pixel :=
  match color with
  | RED => (0, 0, 255)
  | GREEN => (0, 255, 0)
  | BLUE => (255, 0, 0)
  | UNKNOWN => (255, 255, 255)
  end.

(** [gate_open = int(175 - gate_pos * 50)] *)
Definition gate_open (gate_pos : float) : option Z :=
  int_of_float (175 - gate_pos * 50)%float.

(** * Vocabulary of the statements *)

(** The position of a token that started at 0 after [n] calls of [update()]
    on a conveyor of the given speed: [n] float additions. *)
Definition travelled (speed : float) (n : nat) : float :=
  Nat.iter n (fun p => (p + speed)%float) 0%float.

(** [n] halves as a float, for comparison with [travelled 0.5 n]. *)
Definition halves (n : nat) : float :=
  (PrimFloat.of_uint63 (Uint63.of_Z (Z.of_nat n)) * 0.5)%float.

(** How many of the calls are [update()]. *)
Definition count_updates (cs : list VirtualConveyor.call) : nat :=
  length (List.filter
            (fun c => match c with VirtualConveyor.Update => true | _ => false end) cs).

(** How many of the calls are [add_object]. *)
Definition count_adds (cs : list VirtualConveyor.call) : nat :=
  length (List.filter
            (fun c => match c with VirtualConveyor.AddObject _ _ => true | _ => false end) cs).

(** The identifiers of the tokens in [self.objects], in order. *)
Definition identifiers (self : VirtualConveyor.t) : list Z :=
  map ObjectToken.id (VirtualConveyor.objects self).

(** A token as [add_object] creates it, after it has travelled [n] halves. *)
Definition token_at (color : ObjectColor) (rnd : Z) (n : nat) : ObjectToken.t :=
  {| ObjectToken.color := color;
     ObjectToken.position := halves n;
     ObjectToken.id := rnd |}.

(** A source of images that are HSV pixel lists already, and images made of
    pixels inside the red, green and blue windows of the detector. *)
Definition hsv_images : OpenCV :=
  {| image := list pixel; cvtColor_BGR2HSV := fun frame => frame |}.

Definition patches (red green blue : nat) : list pixel :=
  repeat (5, 200, 200) red ++ repeat (60, 200, 200) green ++ repeat (120, 200, 200) blue.

(** A pass of the loop with no spawn and no key pressed ([cv2.waitKey]
    returns -1 then). *)
Definition quiet_pass `{OpenCV} (frm : image) : AutomatedSorter.inputs :=
  {| AutomatedSorter.frame := frm;
     AutomatedSorter.spawn := None;
     AutomatedSorter.key := -1 |}.

(** Every colour has an entry in the tally. *)
Definition tally_total (counts : gmap ObjectColor Z) : Prop :=
  forall color, is_Some (counts !! color).

(** The gate command of a pass: 1 on a match, 0 otherwise. *)
Definition command `{OpenCV} (self : AutomatedSorter.t) (frm : image) : float :=
  if decide (AIColorDetector.detect (AutomatedSorter.detector self) frm =
             AutomatedSorter.target_color self)
  then 1%float else 0%float.

(** The invariant of the loop. *)
Definition sorter_inv (self : AutomatedSorter.t) : Prop :=
  tally_total (AutomatedSorter.sorted_counts self) /\
  AutomatedSorter.target_color self <> UNKNOWN /\
  AutomatedSorter.sorted_counts self !! UNKNOWN = Some 0.

(** The test of [cv2.inRange] on one pixel. *)
Definition within (lowerb upperb p : pixel) : bool :=
  match p, lowerb, upperb with
  | (h, s, v), (lh, ls, lv), (uh, us, uv) =>
      (lh <=? h) && (h <=? uh) && (ls <=? s) && (s <=? us) && (lv <=? v) && (v <=? uv)
  end.

(** The pixels that one of the three masks of a detector keeps. *)
Definition counted (self : AIColorDetector.t) (p : pixel) : bool :=
  within (AIColorDetector.lower_red self) (AIColorDetector.upper_red self) p ||
  within (AIColorDetector.lower_green self) (AIColorDetector.upper_green self) p ||
  within (AIColorDetector.lower_blue self) (AIColorDetector.upper_blue self) p.

(** The HSV values of black and of the three camera colours, and nothing
    sensible elsewhere: enough of a conversion for the camera's frames. *)
Definition primary_hsv (p : pixel) : pixel :=
  match p with
  | (0, 0, 255) => (0, 255, 255)
  | (0, 255, 0) => (60, 255, 255)
  | (255, 0, 0) => (120, 255, 255)
  | _ => (0, 0, 0)
  end.

(** The gate driven by a list of commands: [set_position] then [update()]
    for each. *)
Definition drive (self : VirtualActuator.t) (commands : list float) : VirtualActuator.t :=
  fold_left (fun a c => fst (VirtualActuator.update (VirtualActuator.set_position a c)))
            commands self.

(** The positions the gate takes when it starts at 0 and is commanded to 0
    or 1 before each [update()]. *)
Definition gate_positions : list float :=
  [ (-0.09999999999999998)%float; 0%float; 2.7755575615628914e-17%float;
    0.1%float; 0.10000000000000003%float; 0.2%float; 0.20000000000000004%float;
    0.30000000000000004%float; 0.4%float; 0.5%float; 0.6%float; 0.7%float;
    0.7999999999999999%float; 0.8999999999999999%float; 0.9999999999999999%float;
    1.0999999999999999%float ].

(** The tally of colour [C] as the loop computes it from the frames and keys
    alone: one for each pass, up to the first [q], whose detected colour is the
    target colour of that pass and is [C]. *)
Fixpoint tally_of `{OpenCV} (detector : AIColorDetector.t) (target : ObjectColor)
  (ins : list AutomatedSorter.inputs) (C : ObjectColor) : Z :=
  match ins with
  | [] => 0
  | i :: rest =>
      (if decide (AIColorDetector.detect detector (AutomatedSorter.frame i) = target /\
                  target = C) then 1 else 0) +
      (if AutomatedSorter.key i =? AutomatedSorter.ord_q then 0
       else tally_of detector
              (AutomatedSorter.key_target (AutomatedSorter.key i) target) rest C)
  end.

(** The conveyor calls of the passes, up to the first [q]: [update()], then
    [add_object] if the pass spawns. *)
Fixpoint conveyor_calls `{OpenCV} (ins : list AutomatedSorter.inputs)
  : list VirtualConveyor.call :=
  match ins with
  | [] => []
  | i :: rest =>
      VirtualConveyor.Update ::
      match AutomatedSorter.spawn i with
      | Some (color, rnd) => [VirtualConveyor.AddObject color rnd]
      | None => []
      end ++
      (if AutomatedSorter.key i =? AutomatedSorter.ord_q then [] else conveyor_calls rest)
  end.

(** The gate commands of the passes, up to the first [q]: 1 when the detected
    colour is the target colour of the pass, 0 otherwise. *)
Fixpoint gate_commands `{OpenCV} (detector : AIColorDetector.t) (target : ObjectColor)
  (ins : list AutomatedSorter.inputs) : list float :=
  match ins with
  | [] => []
  | i :: rest =>
      (if decide (AIColorDetector.detect detector (AutomatedSorter.frame i) = target)
       then 1%float else 0%float) ::
      (if AutomatedSorter.key i =? AutomatedSorter.ord_q then []
       else gate_commands detector
              (AutomatedSorter.key_target (AutomatedSorter.key i) target) rest)
  end.

(** A token as a spawn of the loop makes it: one of the three colours, and an
    identifier [random.randint(1000, 9999)] can return. *)
Definition spawned_like (tok : ObjectToken.t) : Prop :=
  ObjectToken.color tok <> UNKNOWN /\
  VirtualConveyor.randint 1000 9999 (ObjectToken.id tok).

(** * Properties *)

(** ** VirtualConveyor *)
Section ConveyorFacts.
Import VirtualConveyor.

Lemma add_object_speed self color rnd :
  speed (add_object self color rnd) = speed self.
Proof. reflexivity. Qed.

Lemma update_speed self : speed (fst (update self)) = speed self.
Proof. reflexivity. Qed.

Lemma update_objects self :
  objects (fst (update self)) = map (advance (speed self)) (objects self).
Proof. reflexivity. Qed.

Lemma update_returned self :
  snd (update self) = List.filter on_belt (objects (fst (update self))).
Proof. reflexivity. Qed.

Lemma do_calls_speed cs : forall self, speed (do_calls self cs) = speed self.
Proof.
  induction cs as [|c cs IH]; intros self; [reflexivity|].
  unfold do_calls in *. cbn [fold_left]. rewrite IH.
  destruct c; reflexivity.
Qed.

Lemma reachable_speed cs : speed (do_calls init cs) = 0.5%float.
Proof. rewrite do_calls_speed. reflexivity. Qed.

Lemma advance_iter speed n color rnd :
  Nat.iter n (advance speed)
    {| ObjectToken.color := color; ObjectToken.position := 0%float; ObjectToken.id := rnd |} =
  {| ObjectToken.color := color; ObjectToken.position := travelled speed n; ObjectToken.id := rnd |}.
Proof.
  induction n as [|n IH]; [reflexivity|].
  cbn [Nat.iter nat_rect] in *. unfold Nat.iter in IH. rewrite IH. reflexivity.
Qed.

(** The first 200 positions of a token on the belt, checked one by one:
    exactly [n] halves, below 100 up to the 199th and not at the 200th. *)
Lemma travelled_halves n :
  (n <= 200)%nat -> travelled 0.5 n = halves n.
Proof.
  intros Hn.
  assert (Hall : Forall (fun k => travelled 0.5 k = halves k) (seq 0 201)).
  { cbn [seq]. repeat (constructor; [reflexivity|]). constructor. }
  rewrite List.Forall_forall in Hall. apply Hall, in_seq. lia.
Qed.

Lemma travelled_on_belt n :
  (n <= 200)%nat ->
  PrimFloat.ltb (travelled 0.5 n) 100%float = (n <? 200)%nat.
Proof.
  intros Hn.
  assert (Hall : forallb (fun k => Bool.eqb (PrimFloat.ltb (travelled 0.5 k) 100%float)
                                             (k <? 200)%nat) (seq 0 201) = true)
    by (vm_compute; reflexivity).
  rewrite List.forallb_forall in Hall.
  apply Bool.eqb_prop, Hall, in_seq. lia.
Qed.

End ConveyorFacts.

Section ConveyorCalls.
Import VirtualConveyor.

Lemma lookup_map_advance (f : ObjectToken.t -> ObjectToken.t) (l : list ObjectToken.t) (i : nat) :
  map f l !! i = option_map f (l !! i).
Proof.
  revert i. induction l as [|x l IH]; intros [|i]; cbn; try reflexivity. apply IH.
Qed.

Lemma do_calls_cons self c cs :
  do_calls self (c :: cs) = do_calls (do_call self c) cs.
Proof. reflexivity. Qed.

Lemma iter_advance_shift speed k (l : list ObjectToken.t) :
  map (Nat.iter k (advance speed)) (map (advance speed) l) =
  map (Nat.iter (S k) (advance speed)) l.
Proof.
  rewrite map_map. apply map_ext. intros obj.
  symmetry. apply Nat.iter_succ_r.
Qed.

(** After any calls the list holds the tokens it held before, each advanced
    once per [update()], followed by the tokens added since. *)
Lemma do_calls_objects cs : forall self,
  exists newer,
    objects (do_calls self cs) =
    map (Nat.iter (count_updates cs) (advance (speed self))) (objects self) ++ newer.
Proof.
  induction cs as [|c cs IH]; intros self.
  - exists []. cbn. rewrite app_nil_r. symmetry. apply map_id.
  - rewrite do_calls_cons. destruct (IH (do_call self c)) as [newer Hn].
    rewrite Hn. destruct c as [color rnd|].
    + cbn [do_call]. rewrite add_object_speed. cbn [add_object objects].
      rewrite map_app, <- app_assoc. eexists. reflexivity.
    + cbn [do_call]. rewrite update_speed, update_objects, iter_advance_shift.
      exists newer. reflexivity.
Qed.

(** X2.  No call takes a token out of [self.objects]: after any calls its
    length is the length before plus the number of [add_object] calls. *)
Theorem objects_never_shrink cs : forall self,
  length (objects (do_calls self cs)) = (length (objects self) + count_adds cs)%nat.
Proof.
  induction cs as [|c cs IH]; intros self.
  - cbn. lia.
  - rewrite do_calls_cons, IH. destruct c as [color rnd|].
    + cbn [do_call add_object objects]. rewrite length_app. cbn. unfold count_adds. lia.
    + cbn [do_call]. rewrite update_objects, length_map. reflexivity.
Qed.

End ConveyorCalls.

Section ConveyorClaims.
Import VirtualConveyor.

(** C1.  [update()] advances every token by the speed and leaves the tokens
    at 100 or beyond out of the list it returns, but it does not take them out
    of [self.objects]: a token at 99.5 (added, then 199 updates) is advanced to
    100, the returned list is empty, and the token is still stored. *)
Theorem update_keeps_expired_token :
  let before := fst (updates 199 (add_object init RED 1000)) in
  let after := update before in
  objects before = [ {| ObjectToken.color := RED; ObjectToken.position := 99.5%float;
                        ObjectToken.id := 1000 |} ] /\
  snd after = [] /\
  objects (fst after) = [ {| ObjectToken.color := RED; ObjectToken.position := 100%float;
                             ObjectToken.id := 1000 |} ].
Proof. vm_compute. repeat split; reflexivity. Qed.

(** C2.  The bound does not hold of [self.objects] in every reachable state:
    after [add_object] and 200 calls of [update()] the list holds a token at
    position 100, and after 250 calls the same token at 125. *)
Theorem reachable_objects_beyond_limit :
  objects (do_calls init (AddObject RED 1000 :: repeat Update 200)) =
    [ {| ObjectToken.color := RED; ObjectToken.position := 100%float;
         ObjectToken.id := 1000 |} ] /\
  PrimFloat.ltb 100%float 100%float = false /\
  objects (do_calls init (AddObject RED 1000 :: repeat Update 250)) =
    [ {| ObjectToken.color := RED; ObjectToken.position := 125%float;
         ObjectToken.id := 1000 |} ].
Proof. vm_compute. repeat split; reflexivity. Qed.

(** C7.  A token is added to any reachable conveyor and any calls follow.
    The list returned by the [n]-th [update()] after the addition, for [n] up
    to 200, is: the surviving older tokens, then the token itself at exactly
    [n] halves when [n < 200] and nothing in its place when [n = 200], then
    the surviving tokens added later.  So the token is in each of the first
    199 returned lists and not in the 200th, as C7 says.  But [self.objects],
    the conveyor's live set, still holds the token after that call, at [n]
    halves (100 when [n = 200]): it is never absent from the live set, which
    C7 says it is after the 200th call. *)
Theorem token_leaves_at_200th_update
  (cs cs' : list call) (color : ObjectColor) (rnd : Z) :
  let self := do_calls init cs in
  let n := S (count_updates cs') in
  (n <= 200)%nat ->
  exists later,
    snd (update (do_calls (add_object self color rnd) cs')) =
      List.filter on_belt (map (Nat.iter n (advance 0.5%float)) (objects self)) ++
      (if (n <? 200)%nat then [token_at color rnd n] else []) ++
      List.filter on_belt later /\
    objects (fst (update (do_calls (add_object self color rnd) cs'))) =
      map (Nat.iter n (advance 0.5%float)) (objects self) ++
      [token_at color rnd n] ++ later.
Proof.
  intros self n Hn. subst self.
  destruct (do_calls_objects cs' (add_object (do_calls init cs) color rnd))
    as [newer Hnewer].
  rewrite add_object_speed, reachable_speed in Hnewer.
  cbn [add_object objects] in Hnewer.
  exists (map (advance 0.5%float) newer).
  rewrite update_returned, update_objects, Hnewer.
  rewrite do_calls_speed, add_object_speed, reachable_speed.
  rewrite !map_app, map_map. cbn [map].
  change (fun x => advance 0.5%float (Nat.iter (count_updates cs') (advance 0.5%float) x))
    with (Nat.iter n (advance 0.5%float)).
  change (advance 0.5%float (Nat.iter (count_updates cs') (advance 0.5%float) ?t))
    with (Nat.iter n (advance 0.5%float) t).
  rewrite advance_iter, travelled_halves by exact Hn.
  fold (token_at color rnd n).
  split; [|rewrite <- !app_assoc; reflexivity].
  rewrite <- !app_assoc, !List.filter_app. f_equal. f_equal.
  cbn [List.filter]. unfold on_belt at 1, token_at.
  cbn [ObjectToken.position]. rewrite <- travelled_halves by exact Hn.
  rewrite travelled_on_belt by exact Hn.
  destruct (n <? 200)%nat; reflexivity.
Qed.

Lemma token_leaves_at_200th_update_witness :
  exists later,
    snd (update (do_calls (add_object init BLUE 4242) (repeat Update 199))) =
      [] ++ [] ++ List.filter on_belt later /\
    objects (fst (update (do_calls (add_object init BLUE 4242) (repeat Update 199)))) =
      [] ++ [token_at BLUE 4242 200] ++ later.
Proof.
  refine (token_leaves_at_200th_update [] (repeat Update 199) BLUE 4242 _).
  vm_compute. lia.
Defined.

(** C8, as claimed, fails: the identifier 1000 drawn twice gives two stored
    tokens with the same identifier, although the identifiers were distinct
    before the second call and 1000 is a possible draw. *)
Lemma add_object_identifier_collision :
  randint 1000 9999 1000 /\
  NoDup (identifiers (add_object init RED 1000)) /\
  ~ NoDup (identifiers (add_object (add_object init RED 1000) GREEN 1000)).
Proof.
  split; [unfold randint; lia|]. split.
  - cbn. apply NoDup_singleton.
  - cbn. intros Hnd. apply NoDup_cons in Hnd as [Hin _]. apply Hin. left.
Qed.

(** C8, amended.  [add_object] gives the new token the drawn value as its
    identifier, without looking at the tokens already there: after the call
    the identifiers are pairwise distinct exactly when they were before it and
    the drawn value is none of them. *)
Theorem add_object_identifier_unchecked
  (self : VirtualConveyor.t) (color : ObjectColor) (rnd : Z) :
  identifiers (add_object self color rnd) = identifiers self ++ [rnd] /\
  (NoDup (identifiers (add_object self color rnd)) <->
   NoDup (identifiers self) /\ ~ In rnd (identifiers self)).
Proof.
  assert (Hids : identifiers (add_object self color rnd) = identifiers self ++ [rnd]).
  { unfold identifiers. cbn [add_object objects]. rewrite map_app. reflexivity. }
  split; [exact Hids|]. rewrite Hids, NoDup_app. split.
  - intros (Hnd & Hdisj & _). split; [exact Hnd|].
    intros Hin. apply (Hdisj rnd); [apply list_elem_of_In; exact Hin | left].
  - intros [Hnd Hfresh]. split; [exact Hnd|]. split; [|apply NoDup_singleton].
    intros x Hx Hx'. apply list_elem_of_singleton in Hx'. subst x.
    apply Hfresh, list_elem_of_In, Hx.
Qed.

(** C10.  Whatever calls are made, the token stored at an index stays at that
    index with the colour and the identifier it had; [add_object] leaves the
    stored tokens and the conveyor's position and speed as they were, and
    [update()] changes nothing of a token but its position. *)
Theorem color_and_id_never_modified
  (self : VirtualConveyor.t) (cs : list call) (i : nat) (tok : ObjectToken.t) :
  objects self !! i = Some tok ->
  (exists tok',
     objects (do_calls self cs) !! i = Some tok' /\
     ObjectToken.color tok' = ObjectToken.color tok /\
     ObjectToken.id tok' = ObjectToken.id tok) /\
  (forall color rnd,
     objects (add_object self color rnd) !! i = Some tok /\
     position (add_object self color rnd) = position self /\
     speed (add_object self color rnd) = speed self) /\
  objects (fst (update self)) !! i = Some (advance (speed self) tok) /\
  speed (fst (update self)) = speed self.
Proof.
  intros Hi. split; [|split; [|split]].
  - revert self tok Hi. induction cs as [|c cs IH]; intros self tok Hi.
    + exists tok. auto.
    + rewrite do_calls_cons. destruct c as [color rnd|].
      * apply IH. cbn [do_call add_object objects].
        apply lookup_app_l_Some. exact Hi.
      * destruct (IH (do_call self Update) (advance (speed self) tok)) as (tok' & H1 & H2 & H3).
        { cbn [do_call]. rewrite update_objects, lookup_map_advance, Hi. reflexivity. }
        exists tok'. rewrite H2, H3. auto.
  - intros color rnd. cbn [add_object objects position speed].
    split; [|split; reflexivity]. apply lookup_app_l_Some. exact Hi.
  - rewrite update_objects, lookup_map_advance, Hi. reflexivity.
  - reflexivity.
Qed.

Lemma color_and_id_never_modified_witness :
  exists tok',
    objects (do_calls (add_object init GREEN 2024) [Update; AddObject RED 1007; Update]) !! 0%nat
      = Some tok' /\
    ObjectToken.color tok' = GREEN /\ ObjectToken.id tok' = 2024.
Proof.
  apply (color_and_id_never_modified (add_object init GREEN 2024)
           [Update; AddObject RED 1007; Update] 0
           {| ObjectToken.color := GREEN; ObjectToken.position := 0%float;
              ObjectToken.id := 2024 |}).
  reflexivity.
Defined.


End ConveyorClaims.

(** ** AIColorDetector *)
Section DetectorClaims.
Import AIColorDetector.
Context `{OpenCV}.

(** The six comparisons of [dominant], case by case. *)
Ltac dominant_cases r g b :=
  unfold dominant;
  destruct (Z.gtb_spec r g), (Z.gtb_spec r b), (Z.gtb_spec g r), (Z.gtb_spec g b),
    (Z.gtb_spec b r), (Z.gtb_spec b g); cbn; split; intros;
  try discriminate; try lia; reflexivity.

Lemma dominant_RED r g b : dominant r g b = RED <-> r > g /\ r > b.
Proof. dominant_cases r g b. Qed.

Lemma dominant_GREEN r g b : dominant r g b = GREEN <-> g > r /\ g > b.
Proof. dominant_cases r g b. Qed.

Lemma dominant_BLUE r g b : dominant r g b = BLUE <-> b > r /\ b > g.
Proof. dominant_cases r g b. Qed.

Lemma dominant_UNKNOWN r g b :
  dominant r g b = UNKNOWN <->
  ~ (r > g /\ r > b) /\ ~ (g > r /\ g > b) /\ ~ (b > r /\ b > g).
Proof. dominant_cases r g b. Qed.

(** C3.  [detect] returns a colour exactly when that colour's pixel count is
    strictly greater than both other counts, and UNKNOWN exactly when no count
    is; so a tie for the largest count (all three zero included) gives
    UNKNOWN.  Counts 50, 50, 0 give UNKNOWN and counts 50, 49, 0 give RED. *)
Theorem detect_strict_dominance (self : AIColorDetector.t) (frame : image) :
  let r := red_pixels self frame in
  let g := green_pixels self frame in
  let b := blue_pixels self frame in
  (detect self frame = RED <-> r > g /\ r > b) /\
  (detect self frame = GREEN <-> g > r /\ g > b) /\
  (detect self frame = BLUE <-> b > r /\ b > g) /\
  (detect self frame = UNKNOWN <->
   ~ (r > g /\ r > b) /\ ~ (g > r /\ g > b) /\ ~ (b > r /\ b > g)) /\
  ((r = g /\ b <= r) \/ (r = b /\ g <= r) \/ (g = b /\ r <= g) ->
   detect self frame = UNKNOWN) /\
  (r = 50 -> g = 50 -> b = 0 -> detect self frame = UNKNOWN) /\
  (r = 50 -> g = 49 -> b = 0 -> detect self frame = RED).
Proof.
  intros r g b. unfold detect. fold r g b.
  split; [apply dominant_RED|]. split; [apply dominant_GREEN|].
  split; [apply dominant_BLUE|]. split; [apply dominant_UNKNOWN|].
  split; [|split].
  - intros Htie. apply dominant_UNKNOWN. lia.
  - intros -> -> ->. reflexivity.
  - intros -> -> ->. reflexivity.
Qed.

End DetectorClaims.

Lemma detect_strict_dominance_witness :
  @AIColorDetector.detect hsv_images AIColorDetector.init (patches 50 50 0) = UNKNOWN /\
  @AIColorDetector.detect hsv_images AIColorDetector.init (patches 50 49 0) = RED.
Proof.
  split.
  - destruct (@detect_strict_dominance hsv_images AIColorDetector.init (patches 50 50 0))
      as (_ & _ & _ & _ & _ & Htie & _).
    apply Htie; reflexivity.
  - destruct (@detect_strict_dominance hsv_images AIColorDetector.init (patches 50 49 0))
      as (_ & _ & _ & _ & _ & _ & Hred).
    apply Hred; reflexivity.
Defined.

(** ** VirtualActuator *)
Section ActuatorClaims.
Import VirtualActuator.

(** C4.  From position 0 with target 1 the ten first calls of [update()] end
    at 0.9999999999999999, which is still below the target, so the eleventh
    call adds 0.1 again and returns 1.0999999999999999: past the target and
    outside [0, 1].  The twelfth call steps back, and so on. *)
Theorem gate_overshoots_on_11th_update :
  let opening := set_position init 1%float in
  position (updates 10 opening) = 0.9999999999999999%float /\
  PrimFloat.ltb (position (updates 10 opening)) 1%float = true /\
  snd (update (updates 10 opening)) = 1.0999999999999999%float /\
  PrimFloat.ltb 1%float (position (updates 11 opening)) = true /\
  position (updates 12 opening) = 0.9999999999999999%float /\
  position (updates 13 opening) = 1.0999999999999999%float.
Proof. vm_compute. repeat split; reflexivity. Qed.

(** X1.  The first ten calls after [set_position(1)] from position 0: each
    returns the position before it plus 0.1, which is nearer the target, none
    leaves [0, 1], and the tenth is at least 0.99. *)
Theorem gate_opens_in_ten_updates (n : nat) :
  (n < 10)%nat ->
  let opening := set_position init 1%float in
  snd (update (updates n opening)) = (position (updates n opening) + 0.1)%float /\
  PrimFloat.ltb (position (updates n opening)) (position (updates (S n) opening)) = true /\
  PrimFloat.leb 0%float (position (updates (S n) opening)) = true /\
  PrimFloat.leb (position (updates (S n) opening)) 1%float = true /\
  PrimFloat.leb 0.99%float (position (updates 10 opening)) = true.
Proof.
  intros Hn opening.
  assert (Hall : Forall (fun k =>
            snd (update (updates k opening)) = (position (updates k opening) + 0.1)%float /\
            PrimFloat.ltb (position (updates k opening)) (position (updates (S k) opening)) = true /\
            PrimFloat.leb 0%float (position (updates (S k) opening)) = true /\
            PrimFloat.leb (position (updates (S k) opening)) 1%float = true /\
            PrimFloat.leb 0.99%float (position (updates 10 opening)) = true) (seq 0 10)).
  { cbn [seq]. repeat (constructor; [vm_compute; repeat split; reflexivity|]). constructor. }
  rewrite List.Forall_forall in Hall. apply Hall, in_seq. lia.
Qed.

Lemma gate_opens_in_ten_updates_witness :
  snd (update (updates 9 (set_position init 1%float))) =
    (position (updates 9 (set_position init 1%float)) + 0.1)%float /\
  PrimFloat.ltb (position (updates 9 (set_position init 1%float)))
                (position (updates 10 (set_position init 1%float))) = true /\
  PrimFloat.leb 0%float (position (updates 10 (set_position init 1%float))) = true /\
  PrimFloat.leb (position (updates 10 (set_position init 1%float))) 1%float = true /\
  PrimFloat.leb 0.99%float (position (updates 10 (set_position init 1%float))) = true.
Proof. apply (gate_opens_in_ten_updates 9). lia. Defined.

End ActuatorClaims.

(** ** AutomatedSorter *)
Section SorterFacts.
Import AutomatedSorter.
Context `{OpenCV}.

Lemma init_tally_total : tally_total (sorted_counts init).
Proof. intros color. destruct color; eexists; reflexivity. Qed.

Lemma increment_total counts color :
  tally_total counts ->
  exists n, counts !! color = Some n /\
            increment counts color = Some (<[color := n + 1]> counts).
Proof.
  intros Htot. destruct (Htot color) as [n Hn]. exists n.
  unfold increment. rewrite Hn. auto.
Qed.

Lemma insert_tally_total counts color n :
  tally_total counts -> tally_total (<[color := n]> counts).
Proof.
  intros Htot c. destruct (decide (color = c)) as [->|Hne].
  - rewrite lookup_insert_eq. eauto.
  - rewrite lookup_insert_ne by exact Hne. apply Htot.
Qed.

(** What a pass that does not fail leaves behind, field by field. *)
Lemma tick_fields self i self' out stop :
  tick self i = Some (self', out, stop) ->
  target_color self' = key_target (key i) (target_color self) /\
  detector self' = detector self /\
  stop = (key i =? ord_q) /\
  gate self' =
    fst (VirtualActuator.update (VirtualActuator.set_position (gate self) (command self (frame i)))) /\
  gate_pos out =
    snd (VirtualActuator.update (VirtualActuator.set_position (gate self) (command self (frame i)))) /\
  conveyor self' =
    match spawn i with
    | Some (color, rnd) =>
        VirtualConveyor.add_object (fst (VirtualConveyor.update (conveyor self))) color rnd
    | None => fst (VirtualConveyor.update (conveyor self))
    end /\
  active_objects out = snd (VirtualConveyor.update (conveyor self)) /\
  (if decide (AIColorDetector.detect (detector self) (frame i) = target_color self)
   then increment (sorted_counts self) (AIColorDetector.detect (detector self) (frame i))
        = Some (sorted_counts self')
   else sorted_counts self' = sorted_counts self).
Proof.
  unfold tick, control, command.
  destruct (decide (AIColorDetector.detect (detector self) (frame i) = target_color self))
    as [Heq|Hne].
  - destruct (increment _ _) as [counts|]; [|discriminate].
    intros [= <- <- <-]. destruct (spawn i) as [[color rnd]|]; cbn; auto 10.
  - intros [= <- <- <-]. destruct (spawn i) as [[color rnd]|]; cbn; auto 10.
Qed.

(** A pass fails only on a missing tally entry. *)
Lemma tick_total self i :
  tally_total (sorted_counts self) ->
  exists self' out stop,
    tick self i = Some (self', out, stop) /\ tally_total (sorted_counts self').
Proof.
  intros Htot. unfold tick, control.
  destruct (decide (AIColorDetector.detect (detector self) (frame i) = target_color self))
    as [Heq|Hne].
  - destruct (increment_total _ (AIColorDetector.detect (detector self) (frame i)) Htot)
      as (n & Hn & Hinc).
    rewrite Hinc. cbn. do 3 eexists. split; [reflexivity|].
    destruct (spawn i) as [[color rnd]|]; cbn; apply insert_tally_total, Htot.
  - cbn. do 3 eexists. split; [reflexivity|].
    destruct (spawn i) as [[color rnd]|]; cbn; exact Htot.
Qed.

Lemma key_target_known k target :
  target <> UNKNOWN -> key_target k target <> UNKNOWN.
Proof.
  intros Ht. unfold key_target.
  repeat match goal with |- context [if ?b then _ else _] => destruct b end;
    solve [exact Ht | discriminate].
Qed.

Lemma sorter_inv_init : sorter_inv init.
Proof. split; [apply init_tally_total|]. split; [discriminate|reflexivity]. Qed.

Lemma sorter_inv_tick self i :
  sorter_inv self ->
  exists self' out stop, tick self i = Some (self', out, stop) /\ sorter_inv self'.
Proof.
  intros (Htot & Htarget & Hunknown).
  destruct (tick_total self i Htot) as (self' & out & stop & Htick & Htot').
  exists self', out, stop. split; [exact Htick|].
  destruct (tick_fields _ _ _ _ _ Htick) as (Ht & _ & _ & _ & _ & _ & _ & Hcounts).
  split; [exact Htot'|]. split.
  - rewrite Ht. apply key_target_known, Htarget.
  - destruct (decide _) as [Heq|Hne]; [|rewrite Hcounts; exact Hunknown].
    unfold increment in Hcounts.
    destruct (sorted_counts self !! AIColorDetector.detect _ _) as [n|]; [|discriminate].
    injection Hcounts as <-. rewrite lookup_insert_ne; [exact Hunknown|].
    rewrite Heq. exact Htarget.
Qed.

Lemma sorter_inv_run ins : forall self,
  sorter_inv self -> exists self', run self ins = Some self' /\ sorter_inv self'.
Proof.
  induction ins as [|i ins IH]; intros self Hinv.
  - exists self. split; [reflexivity|exact Hinv].
  - destruct (sorter_inv_tick self i Hinv) as (self1 & out & stop & Htick & Hinv1).
    cbn [run]. rewrite Htick. destruct stop.
    + exists self1. split; [reflexivity|exact Hinv1].
    + apply IH, Hinv1.
Qed.

End SorterFacts.

Section SorterClaims.
Import AutomatedSorter.
Context `{OpenCV}.

Lemma reachable_inv ins self : run init ins = Some self -> sorter_inv self.
Proof.
  intros Hrun. destruct (sorter_inv_run ins init sorter_inv_init) as (self' & Hrun' & Hinv).
  rewrite Hrun in Hrun'. injection Hrun' as ->. exact Hinv.
Qed.

(** A pass without spawn or key, on a match and on a mismatch. *)
Lemma quiet_tick_match self frm n :
  AIColorDetector.detect (detector self) frm = target_color self ->
  sorted_counts self !! target_color self = Some n ->
  tick self (quiet_pass frm) =
  Some ({| conveyor := fst (VirtualConveyor.update (conveyor self));
           gate := fst (VirtualActuator.update
                          (VirtualActuator.set_position (gate self) 1%float));
           detector := detector self;
           target_color := target_color self;
           sorted_counts := <[target_color self := n + 1]> (sorted_counts self) |},
        {| gate_pos := snd (VirtualActuator.update
                              (VirtualActuator.set_position (gate self) 1%float));
           active_objects := snd (VirtualConveyor.update (conveyor self)) |},
        false).
Proof.
  intros Hd Hn. unfold tick, control. cbn [frame quiet_pass spawn key].
  rewrite Hd. rewrite decide_True by reflexivity.
  unfold increment. rewrite Hn. reflexivity.
Qed.

Lemma quiet_tick_mismatch self frm :
  AIColorDetector.detect (detector self) frm <> target_color self ->
  tick self (quiet_pass frm) =
  Some ({| conveyor := fst (VirtualConveyor.update (conveyor self));
           gate := fst (VirtualActuator.update
                          (VirtualActuator.set_position (gate self) 0%float));
           detector := detector self;
           target_color := target_color self;
           sorted_counts := sorted_counts self |},
        {| gate_pos := snd (VirtualActuator.update
                              (VirtualActuator.set_position (gate self) 0%float));
           active_objects := snd (VirtualConveyor.update (conveyor self)) |},
        false).
Proof.
  intros Hd. unfold tick, control. cbn [frame quiet_pass spawn key].
  rewrite decide_False by exact Hd. reflexivity.
Qed.

(** C6.  Fresh state (target RED), three passes without spawn or key whose
    frames are detected as RED, GREEN, RED: the gate position returned by the
    three passes is 0.1, 0.0, 0.1 and the tally ends at RED 2, GREEN 0, BLUE 0,
    UNKNOWN 0. *)
Theorem red_green_red_scenario (f1 f2 f3 : image) :
  AIColorDetector.detect AIColorDetector.init f1 = RED ->
  AIColorDetector.detect AIColorDetector.init f2 = GREEN ->
  AIColorDetector.detect AIColorDetector.init f3 = RED ->
  exists s1 o1 s2 o2 s3 o3,
    tick init (quiet_pass f1) = Some (s1, o1, false) /\
    tick s1 (quiet_pass f2) = Some (s2, o2, false) /\
    tick s2 (quiet_pass f3) = Some (s3, o3, false) /\
    run init [quiet_pass f1; quiet_pass f2; quiet_pass f3] = Some s3 /\
    gate_pos o1 = 0.1%float /\
    gate_pos o2 = 0%float /\
    gate_pos o3 = 0.1%float /\
    VirtualActuator.position (gate s3) = 0.1%float /\
    active_objects o3 = [] /\
    target_color s3 = RED /\
    sorted_counts s3 !! RED = Some 2 /\
    sorted_counts s3 !! GREEN = Some 0 /\
    sorted_counts s3 !! BLUE = Some 0 /\
    sorted_counts s3 !! UNKNOWN = Some 0.
Proof.
  intros H1 H2 H3.
  pose proof (quiet_tick_match init f1 0 H1 eq_refl) as T1.
  match type of T1 with _ = Some (?s, ?o, _) => set (s1 := s) in *; set (o1 := o) in * end.
  assert (T2 := quiet_tick_mismatch s1 f2).
  match type of T2 with _ -> _ = Some (?s, ?o, _) => set (s2 := s) in *; set (o2 := o) in * end.
  assert (T3 := quiet_tick_match s2 f3 1 H3).
  match type of T3 with _ -> _ = Some (?s, ?o, _) => set (s3 := s) in *; set (o3 := o) in * end.
  assert (T2' : tick s1 (quiet_pass f2) = Some (s2, o2, false)).
  { apply T2. cbn [detector target_color s1 init]. rewrite H2. discriminate. }
  assert (T3' : tick s2 (quiet_pass f3) = Some (s3, o3, false)).
  { apply T3. vm_compute. reflexivity. }
  exists s1, o1, s2, o2, s3, o3.
  split; [exact T1|]. split; [exact T2'|]. split; [exact T3'|].
  split; [cbn [run]; rewrite T1, T2', T3'; reflexivity|].
  repeat split; vm_compute; reflexivity.
Qed.

(** C5.  In every state the loop can be in at the start of a pass, the pass
    does not fail, and the tally entry of a colour grows by one when the
    detected colour equals both the target colour of that state and this
    colour, and stays as it is otherwise.  The key read at the end of the
    pass sets the target colour of the next pass only: a pass on the same
    frame with another key (or spawn) leaves the same tally. *)
Theorem tally_follows_current_target
  (ins : list inputs) (self : AutomatedSorter.t) (i j : inputs) (C : ObjectColor) :
  run init ins = Some self ->
  let detected := AIColorDetector.detect (detector self) (frame i) in
  exists self' out stop n,
    tick self i = Some (self', out, stop) /\
    sorted_counts self !! C = Some n /\
    (detected = target_color self /\ C = detected ->
     sorted_counts self' !! C = Some (n + 1)) /\
    (~ (detected = target_color self /\ C = detected) ->
     sorted_counts self' !! C = Some n) /\
    target_color self' = key_target (key i) (target_color self) /\
    (frame j = frame i ->
     exists self'' out' stop',
       tick self j = Some (self'', out', stop') /\
       sorted_counts self'' = sorted_counts self').
Proof.
  intros Hrun detected.
  destruct (reachable_inv _ _ Hrun) as (Htot & _ & _).
  destruct (tick_total self i Htot) as (self' & out & stop & Htick & _).
  destruct (Htot C) as [n Hn].
  exists self', out, stop, n.
  destruct (tick_fields _ _ _ _ _ Htick) as (Ht & _ & _ & _ & _ & _ & _ & Hcounts).
  fold detected in Hcounts.
  split; [exact Htick|]. split; [exact Hn|].
  split; [|split; [|split; [exact Ht|]]].
  - intros [Hmatch HC]. rewrite decide_True in Hcounts by exact Hmatch.
    unfold increment in Hcounts. subst C. rewrite Hn in Hcounts.
    injection Hcounts as <-. apply lookup_insert_eq.
  - intros Hno. destruct (decide (detected = target_color self)) as [Hmatch|Hmiss].
    + unfold increment in Hcounts.
      destruct (sorted_counts self !! detected) as [m|]; [|discriminate].
      injection Hcounts as <-. rewrite lookup_insert_ne; [exact Hn|].
      intros Heq. apply Hno. split; [exact Hmatch|symmetry; exact Heq].
    + rewrite Hcounts. exact Hn.
  - intros Hframe.
    destruct (tick_total self j Htot) as (self'' & out' & stop' & Htick' & _).
    exists self'', out', stop'. split; [exact Htick'|].
    destruct (tick_fields _ _ _ _ _ Htick') as (_ & _ & _ & _ & _ & _ & _ & Hcounts').
    rewrite Hframe in Hcounts'. fold detected in Hcounts'.
    destruct (decide (detected = target_color self)); congruence.
Qed.

(** C9.  Whatever the inputs of the passes, the loop does not fail and in the
    state it reaches the target colour is not UNKNOWN and the UNKNOWN entry of
    the tally is 0. *)
Theorem unknown_never_tallied (ins : list inputs) :
  exists self,
    run init ins = Some self /\
    target_color self <> UNKNOWN /\
    sorted_counts self !! UNKNOWN = Some 0.
Proof.
  destruct (sorter_inv_run ins init sorter_inv_init) as (self & Hrun & _ & Ht & Hu).
  exists self. auto.
Qed.

End SorterClaims.

Lemma red_green_red_scenario_witness :
  exists s3,
    @AutomatedSorter.run hsv_images AutomatedSorter.init
      [@quiet_pass hsv_images (patches 50 49 0); @quiet_pass hsv_images (patches 0 7 2); @quiet_pass hsv_images (patches 1 0 0)]
      = Some s3 /\
    VirtualActuator.position (AutomatedSorter.gate s3) = 0.1%float /\
    AutomatedSorter.sorted_counts s3 !! RED = Some 2.
Proof.
  destruct (@red_green_red_scenario hsv_images
              (patches 50 49 0) (patches 0 7 2) (patches 1 0 0))
    as (s1 & o1 & s2 & o2 & s3 & o3 & _ & _ & _ & Hrun & _ & _ & _ & Hgate & _ & _ & Hred & _);
    [reflexivity | reflexivity | reflexivity |].
  exists s3. auto.
Defined.

Lemma tally_follows_current_target_witness :
  exists self' out stop n,
    @AutomatedSorter.tick hsv_images AutomatedSorter.init (@quiet_pass hsv_images (patches 3 0 0))
      = Some (self', out, stop) /\
    AutomatedSorter.sorted_counts AutomatedSorter.init !! RED = Some n /\
    AutomatedSorter.sorted_counts self' !! RED = Some (n + 1).
Proof.
  destruct (@tally_follows_current_target hsv_images [] AutomatedSorter.init
              (@quiet_pass hsv_images (patches 3 0 0)) (@quiet_pass hsv_images (patches 3 0 0)) RED eq_refl)
    as (self' & out & stop & n & Htick & Hn & Hinc & _).
  exists self', out, stop, n. split; [exact Htick|]. split; [exact Hn|].
  apply Hinc. split; reflexivity.
Defined.

(** ** More on AIColorDetector *)
Section DetectorMasks.
Import AIColorDetector.
Context `{OpenCV}.

(** A mask counts the pixels inside its window. *)
Lemma countNonZero_inRange (src : list pixel) (lowerb upperb : pixel) :
  countNonZero (inRange src lowerb upperb) =
  Z.of_nat (length (List.filter (within lowerb upperb) src)).
Proof.
  unfold countNonZero, inRange. f_equal.
  induction src as [|[[h s] v] src IH]; [reflexivity|].
  destruct lowerb as [[lh ls] lv], upperb as [[uh us] uv].
  cbn [map List.filter within] in *.
  destruct ((lh <=? h) && (h <=? uh) && (ls <=? s) && (s <=? us) && (lv <=? v) && (v <=? uv));
    cbn; rewrite IH; reflexivity.
Qed.

Lemma filter_filter_implied (f g : pixel -> bool) (l : list pixel) :
  (forall p, f p = true -> g p = true) ->
  List.filter f (List.filter g l) = List.filter f l.
Proof.
  intros Himp. induction l as [|p l IH]; [reflexivity|].
  cbn [List.filter]. destruct (g p) eqn:Hg.
  - cbn [List.filter]. rewrite IH. reflexivity.
  - destruct (f p) eqn:Hf; [|exact IH].
    apply Himp in Hf. congruence.
Qed.

Lemma filter_length_perm (f : pixel -> bool) (l l' : list pixel) :
  Permutation l l' -> length (List.filter f l) = length (List.filter f l').
Proof.
  intros Hp. induction Hp as [|x l l' Hp IH|x y l|l l' l'' Hp IH Hp' IH'].
  - reflexivity.
  - cbn [List.filter]. destruct (f x); cbn; rewrite IH; reflexivity.
  - cbn [List.filter]. destruct (f x), (f y); reflexivity.
  - rewrite IH. exact IH'.
Qed.

Lemma mask_counts_counted (self : AIColorDetector.t) (lowerb upperb : pixel)
  (l l' : list pixel) :
  (forall p, within lowerb upperb p = true -> counted self p = true) ->
  Permutation (List.filter (counted self) l) (List.filter (counted self) l') ->
  countNonZero (inRange l lowerb upperb) = countNonZero (inRange l' lowerb upperb).
Proof.
  intros Himp Hp. rewrite !countNonZero_inRange. f_equal.
  rewrite <- (filter_filter_implied _ (counted self) l Himp).
  rewrite <- (filter_filter_implied _ (counted self) l' Himp).
  apply filter_length_perm, Hp.
Qed.

(** X4.  The result of [detect] depends only on the pixels that fall inside
    one of the three windows, whatever their order: two frames whose counted
    HSV pixels are the same up to order get the same three counts and the same
    colour.  Neither where a patch is in the image nor the pixels outside all
    windows matter. *)
Theorem detect_ignores_order_and_background
  (self : AIColorDetector.t) (frame frame' : image) :
  Permutation (List.filter (counted self) (cvtColor_BGR2HSV frame))
              (List.filter (counted self) (cvtColor_BGR2HSV frame')) ->
  red_pixels self frame = red_pixels self frame' /\
  green_pixels self frame = green_pixels self frame' /\
  blue_pixels self frame = blue_pixels self frame' /\
  detect self frame = detect self frame'.
Proof.
  intros Hp.
  assert (Hr : red_pixels self frame = red_pixels self frame').
  { apply (mask_counts_counted self); [|exact Hp].
    intros p Hw. unfold counted. rewrite Hw. reflexivity. }
  assert (Hg : green_pixels self frame = green_pixels self frame').
  { apply (mask_counts_counted self); [|exact Hp].
    intros p Hw. unfold counted. rewrite Hw. apply orb_true_iff. left.
    apply orb_true_r. }
  assert (Hb : blue_pixels self frame = blue_pixels self frame').
  { apply (mask_counts_counted self); [|exact Hp].
    intros p Hw. unfold counted. rewrite Hw. apply orb_true_r. }
  unfold detect. rewrite Hr, Hg, Hb. auto.
Qed.

(** With the thresholds of [__init__] a pixel is inside at most one window. *)
Lemma init_windows_exclusive (p : pixel) :
  (Z.b2z (within (lower_red init) (upper_red init) p) +
   Z.b2z (within (lower_green init) (upper_green init) p) +
   Z.b2z (within (lower_blue init) (upper_blue init) p) <= 1)%Z.
Proof.
  destruct p as [[h s] v]. cbn [within init lower_red upper_red lower_green upper_green
                                   lower_blue upper_blue].
  destruct (0 <=? h) eqn:E1, (h <=? 10) eqn:E2, (40 <=? h) eqn:E3, (h <=? 80) eqn:E4,
    (100 <=? h) eqn:E5, (h <=? 140) eqn:E6; try lia;
    destruct (100 <=? s), (s <=? 255), (100 <=? v), (v <=? 255); cbn; lia.
Qed.

Lemma filter_length_b2z (f : pixel -> bool) (l : list pixel) :
  Z.of_nat (length (List.filter f l)) =
  fold_right (fun p acc => Z.b2z (f p) + acc)%Z 0%Z l.
Proof.
  induction l as [|p l IH]; [reflexivity|].
  cbn [List.filter fold_right]. destruct (f p); cbn [length Z.b2z]; lia.
Qed.

(** X5.  With the thresholds of [__init__] the three masks are disjoint: the
    three counts are non-negative and add up to at most the number of pixels
    of the frame. *)
Theorem init_masks_disjoint (frame : image) :
  (0 <= red_pixels init frame /\
   0 <= green_pixels init frame /\
   0 <= blue_pixels init frame /\
   red_pixels init frame + green_pixels init frame + blue_pixels init frame
   <= Z.of_nat (length (cvtColor_BGR2HSV frame)))%Z.
Proof.
  unfold red_pixels, green_pixels, blue_pixels.
  rewrite !countNonZero_inRange.
  split; [lia|]. split; [lia|]. split; [lia|].
  rewrite !filter_length_b2z.
  induction (cvtColor_BGR2HSV frame) as [|p l IH]; [cbn; lia|].
  cbn [fold_right length]. pose proof (init_windows_exclusive p). lia.
Qed.

(** X6.  A frame with pixels none of which has both saturation and value of
    at least 100 (a black, white or grey frame) has three counts of 0 and is
    UNKNOWN, whatever the hues. *)
Theorem dull_frame_unknown (frame : image) :
  cvtColor_BGR2HSV frame <> [] ->
  (forall h s v, In (h, s, v) (cvtColor_BGR2HSV frame) -> (s < 100 \/ v < 100)%Z) ->
  red_pixels init frame = 0%Z /\
  green_pixels init frame = 0%Z /\
  blue_pixels init frame = 0%Z /\
  detect init frame = UNKNOWN.
Proof.
  intros _ Hdull.
  assert (Hnone : forall lh uh,
            List.filter (within (lh, 100, 100)%Z (uh, 255, 255)%Z) (cvtColor_BGR2HSV frame) = []).
  { intros lh uh. induction (cvtColor_BGR2HSV frame) as [|[[h s] v] l IH]; [reflexivity|].
    cbn [List.filter within].
    assert (Hsv : (s < 100 \/ v < 100)%Z) by (apply (Hdull h s v); left; reflexivity).
    replace ((lh <=? h) && (h <=? uh) && (100 <=? s) && (s <=? 255) &&
             (100 <=? v) && (v <=? 255)) with false.
    - apply IH. intros h' s' v' Hin. apply (Hdull h' s' v'). right. exact Hin.
    - symmetry. destruct (Z.leb_spec 100 s), (Z.leb_spec 100 v); try lia;
        rewrite ?andb_false_r; reflexivity. }
  unfold detect, red_pixels, green_pixels, blue_pixels.
  rewrite !countNonZero_inRange. cbn [init lower_red upper_red lower_green upper_green
                                        lower_blue upper_blue].
  rewrite !Hnone. cbn. auto.
Qed.

End DetectorMasks.

(** ** The virtual camera *)
Section CameraFrames.
Import AIColorDetector.

(** Each pixel of a camera frame is black or has the rectangle colour
    (checked row by row). *)
Lemma generate_frame_two_colours (color p : pixel) (row : list pixel) :
  In color camera_colors ->
  In row (generate_frame color) ->
  In p row ->
  p = (0, 0, 0)%Z \/ p = color.
Proof.
  intros Hc Hrow Hp.
  assert (Hall : forall c, In c camera_colors ->
            forallb (forallb (fun q => match q, c with
                              | (b, g, r), (cb, cg, cr) =>
                                  ((b =? 0) && (g =? 0) && (r =? 0)) ||
                                  ((b =? cb) && (g =? cg) && (r =? cr))
                              end)%Z) (generate_frame c) = true).
  { intros c Hin. unfold camera_colors in Hin.
    destruct Hin as [<-|[<-|[<-|[]]]]; vm_compute; reflexivity. }
  specialize (Hall color Hc). rewrite List.forallb_forall in Hall.
  specialize (Hall row Hrow). rewrite List.forallb_forall in Hall.
  specialize (Hall p Hp). destruct p as [[b g] r], color as [[cb cg] cr].
  apply orb_true_iff in Hall as [Hz|Hz];
    rewrite !andb_true_iff, !Z.eqb_eq in Hz; destruct Hz as [[-> ->] ->]; auto.
Qed.

Lemma row_count_converted (cvt g : pixel -> pixel) (f : pixel -> bool) (row : list pixel) :
  (forall p, In p row -> cvt p = g p) ->
  length (List.filter f (map cvt row)) = length (List.filter (fun p => f (g p)) row).
Proof.
  induction row as [|p row IH]; intros Hagree; [reflexivity|].
  cbn [map List.filter]. rewrite (Hagree p) by (left; reflexivity).
  destruct (f (g p)); cbn [length]; rewrite IH; auto; intros q Hq; apply Hagree; right; exact Hq.
Qed.

(** A mask count of an image, row by row. *)
Lemma mask_count_rows (cvt g : pixel -> pixel) (rows : list (list pixel))
  (lowerb upperb : pixel) :
  (forall row p, In row rows -> In p row -> cvt p = g p) ->
  countNonZero (inRange (map cvt (concat rows)) lowerb upperb) =
  fold_right (fun row acc =>
                (Z.of_nat (length (List.filter (fun p => within lowerb upperb (g p)) row)) + acc)%Z)
             0%Z rows.
Proof.
  rewrite countNonZero_inRange.
  induction rows as [|row rows IH]; intros Hagree; [reflexivity|].
  cbn [concat fold_right]. rewrite map_app, List.filter_app, length_app, Nat2Z.inj_add.
  rewrite IH by (intros r p Hr Hp; apply (Hagree r p); [right; exact Hr | exact Hp]).
  rewrite (row_count_converted cvt g)
    by (intros p Hp; apply (Hagree row p); [left; reflexivity | exact Hp]).
  reflexivity.
Qed.

(** X7.  Every frame of the virtual camera is detected as the colour of its
    rectangle.  For any pixel conversion that maps BGR black to HSV (0, 0, 0)
    and the three camera colours to (0, 255, 255), (60, 255, 255) and
    (120, 255, 255), as OpenCV's does, and for each colour [random.choice] can
    draw, [detect] returns a colour other than UNKNOWN whose [color_map] entry
    is the drawn BGR colour; its mask counts the 301 x 201 pixels of the
    rectangle and the two other masks count none. *)
Theorem camera_frame_detected (cvt : pixel -> pixel) (color : pixel) :
  cvt (0, 0, 0)%Z = (0, 0, 0)%Z ->
  cvt (0, 0, 255)%Z = (0, 255, 255)%Z ->
  cvt (0, 255, 0)%Z = (60, 255, 255)%Z ->
  cvt (255, 0, 0)%Z = (120, 255, 255)%Z ->
  In color camera_colors ->
  exists label,
    label <> UNKNOWN /\
    color_map_get label = color /\
    @detect (pixelwise cvt) init (generate_frame color) = label /\
    Z.max (@red_pixels (pixelwise cvt) init (generate_frame color))
      (Z.max (@green_pixels (pixelwise cvt) init (generate_frame color))
             (@blue_pixels (pixelwise cvt) init (generate_frame color))) = 60501%Z /\
    (@red_pixels (pixelwise cvt) init (generate_frame color) +
     @green_pixels (pixelwise cvt) init (generate_frame color) +
     @blue_pixels (pixelwise cvt) init (generate_frame color) = 60501)%Z.
Proof.
  intros H0 Hr Hg Hb Hin.
  assert (Hagree : forall row p, In row (generate_frame color) -> In p row ->
                                 cvt p = primary_hsv p).
  { intros row p Hrow Hp.
    destruct (generate_frame_two_colours color p row Hin Hrow Hp) as [->| ->];
      [exact H0|].
    unfold camera_colors in Hin. destruct Hin as [<-|[<-|[<-|[]]]]; assumption. }
  unfold detect, red_pixels, green_pixels, blue_pixels.
  cbn [cvtColor_BGR2HSV pixelwise].
  rewrite !(mask_count_rows cvt primary_hsv) by exact Hagree.
  clear Hagree. unfold camera_colors in Hin. destruct Hin as [<-|[<-|[<-|[]]]].
  - exists RED. split; [discriminate|]. vm_compute. auto.
  - exists GREEN. split; [discriminate|]. vm_compute. auto.
  - exists BLUE. split; [discriminate|]. vm_compute. auto.
Qed.

Lemma camera_frame_detected_witness :
  exists label,
    label <> UNKNOWN /\
    color_map_get label = (0, 255, 0)%Z /\
    @detect (pixelwise primary_hsv) init (generate_frame (0, 255, 0)%Z) = label /\
    Z.max (@red_pixels (pixelwise primary_hsv) init (generate_frame (0, 255, 0)%Z))
      (Z.max (@green_pixels (pixelwise primary_hsv) init (generate_frame (0, 255, 0)%Z))
             (@blue_pixels (pixelwise primary_hsv) init (generate_frame (0, 255, 0)%Z)))
      = 60501%Z /\
    (@red_pixels (pixelwise primary_hsv) init (generate_frame (0, 255, 0)%Z) +
     @green_pixels (pixelwise primary_hsv) init (generate_frame (0, 255, 0)%Z) +
     @blue_pixels (pixelwise primary_hsv) init (generate_frame (0, 255, 0)%Z) = 60501)%Z.
Proof.
  apply (camera_frame_detected primary_hsv (0, 255, 0)%Z);
    [reflexivity | reflexivity | reflexivity | reflexivity | cbn; tauto].
Defined.

End CameraFrames.

(** ** More on VirtualActuator *)
Section ActuatorFacts.
Import VirtualActuator.

(** No float is below itself (a NaN included). *)
Lemma ltb_irrefl (x : float) : PrimFloat.ltb x x = false.
Proof.
  rewrite ltb_spec. unfold SFltb, SFcompare.
  destruct (Prim2SF x) as [s|s| |s m e]; try destruct s; try reflexivity;
    rewrite Z.compare_refl, Pos.compare_cont_refl; reflexivity.
Qed.

(** X8.  At the target the gate holds: when the position equals the target,
    [update()] returns that position and changes nothing, however often it is
    called. *)
Theorem gate_holds_at_target (self : VirtualActuator.t) (n : nat) :
  position self = target self ->
  update self = (self, position self) /\ updates n self = self.
Proof.
  intros Heq.
  assert (Hone : update self = (self, position self)).
  { unfold update. rewrite <- Heq, ltb_irrefl. destruct self as [p t].
    cbn in *. subst t. reflexivity. }
  split; [exact Hone|].
  induction n as [|n IH]; [reflexivity|].
  cbn [updates]. rewrite IH, Hone. reflexivity.
Qed.

Lemma gate_holds_at_target_witness :
  update (fst (update (set_position (fst (update (set_position init 1%float))) 0%float))) =
    (fst (update (set_position (fst (update (set_position init 1%float))) 0%float)), 0%float) /\
  updates 7 (fst (update (set_position (fst (update (set_position init 1%float))) 0%float))) =
    fst (update (set_position (fst (update (set_position init 1%float))) 0%float)).
Proof.
  apply (gate_holds_at_target
           (fst (update (set_position (fst (update (set_position init 1%float))) 0%float))) 7).
  reflexivity.
Defined.

(** One commanded step keeps the position among [gate_positions]. *)
Lemma gate_positions_closed (self : VirtualActuator.t) (c : float) :
  In (position self) gate_positions ->
  c = 0%float \/ c = 1%float ->
  In (position (fst (update (set_position self c)))) gate_positions.
Proof.
  intros Hin Hc. destruct self as [p t]. cbn [position] in Hin.
  unfold gate_positions in Hin.
  repeat (destruct Hin as [<-|Hin]; [destruct Hc as [->| ->]; vm_compute; tauto|]).
  destruct Hin.
Qed.

Lemma gate_positions_bounds (p : float) :
  In p gate_positions ->
  PrimFloat.leb (-0.09999999999999998)%float p = true /\
  PrimFloat.leb p 1.0999999999999999%float = true.
Proof.
  intros Hin. unfold gate_positions in Hin.
  repeat (destruct Hin as [<-|Hin]; [vm_compute; auto|]).
  destruct Hin.
Qed.

Lemma drive_positions (commands : list float) : forall self,
  In (position self) gate_positions ->
  Forall (fun c => c = 0%float \/ c = 1%float) commands ->
  In (position (drive self commands)) gate_positions.
Proof.
  induction commands as [|c commands IH]; intros self Hin Hall; [exact Hin|].
  apply Forall_cons in Hall as [Hc Hall].
  unfold drive in *. cbn [fold_left]. apply IH; [|exact Hall].
  apply gate_positions_closed; assumption.
Qed.

(** X9.  Started at 0 and commanded to 0 or 1 before each [update()], the
    gate only ever takes sixteen positions, all between -0.09999999999999998
    and 1.0999999999999999; both ends are taken, so the gate goes below
    closed as well as beyond open. *)
Theorem gate_positions_bounded (commands : list float) :
  Forall (fun c => c = 0%float \/ c = 1%float) commands ->
  In (position (drive init commands)) gate_positions /\
  PrimFloat.leb (-0.09999999999999998)%float (position (drive init commands)) = true /\
  PrimFloat.leb (position (drive init commands)) 1.0999999999999999%float = true /\
  position (drive init [1; 1; 1; 0; 0; 0; 0]%float) = (-0.09999999999999998)%float /\
  position (drive init (repeat 1%float 11)) = 1.0999999999999999%float.
Proof.
  intros Hall.
  assert (Hin : In (position (drive init commands)) gate_positions).
  { apply drive_positions; [right; left; reflexivity | exact Hall]. }
  split; [exact Hin|].
  destruct (gate_positions_bounds _ Hin) as [Hlo Hhi].
  split; [exact Hlo|]. split; [exact Hhi|].
  split; vm_compute; reflexivity.
Qed.

Lemma gate_positions_bounded_witness :
  In (position (drive init [1; 0; 0; 1]%float)) gate_positions /\
  PrimFloat.leb (-0.09999999999999998)%float (position (drive init [1; 0; 0; 1]%float)) = true /\
  PrimFloat.leb (position (drive init [1; 0; 0; 1]%float)) 1.0999999999999999%float = true /\
  position (drive init [1; 1; 1; 0; 0; 0; 0]%float) = (-0.09999999999999998)%float /\
  position (drive init (repeat 1%float 11)) = 1.0999999999999999%float.
Proof.
  apply (gate_positions_bounded [1; 0; 0; 1]%float).
  repeat (constructor; [first [left; reflexivity | right; reflexivity]|]). constructor.
Defined.

End ActuatorFacts.

(** ** More on AutomatedSorter *)
Section LoopFacts.
Import AutomatedSorter.
Context `{OpenCV}.

Lemma tick_detector self i self' out stop :
  tick self i = Some (self', out, stop) -> detector self' = detector self.
Proof. intros Htick. apply (tick_fields _ _ _ _ _ Htick). Qed.

Lemma tick_stop self i self' out stop :
  tick self i = Some (self', out, stop) -> stop = (key i =? ord_q).
Proof. intros Htick. apply (tick_fields _ _ _ _ _ Htick). Qed.

(** The tally entry of [C] after one pass. *)
Lemma tick_count self i self' out stop C n :
  tick self i = Some (self', out, stop) ->
  sorted_counts self !! C = Some n ->
  sorted_counts self' !! C =
  Some (n + (if decide (AIColorDetector.detect (detector self) (frame i) = target_color self /\
                        target_color self = C) then 1 else 0))%Z.
Proof.
  intros Htick Hn.
  destruct (tick_fields _ _ _ _ _ Htick) as (_ & _ & _ & _ & _ & _ & _ & Hcounts).
  destruct (decide (AIColorDetector.detect (detector self) (frame i) = target_color self))
    as [Hmatch|Hmiss].
  - unfold increment in Hcounts. rewrite Hmatch in Hcounts.
    destruct (decide (target_color self = C)) as [<-|Hne].
    + rewrite Hn in Hcounts. injection Hcounts as <-.
      rewrite decide_True by auto. apply lookup_insert_eq.
    + destruct (sorted_counts self !! target_color self) as [m|]; [|discriminate].
      injection Hcounts as <-. rewrite lookup_insert_ne by exact Hne.
      rewrite decide_False by tauto. rewrite Z.add_0_r. exact Hn.
  - rewrite Hcounts, decide_False by tauto. rewrite Z.add_0_r. exact Hn.
Qed.

Lemma tally_of_bounds detector ins : forall target,
  (0 <= tally_of detector target ins RED /\
   0 <= tally_of detector target ins GREEN /\
   0 <= tally_of detector target ins BLUE /\
   0 <= tally_of detector target ins UNKNOWN /\
   tally_of detector target ins RED + tally_of detector target ins GREEN +
   tally_of detector target ins BLUE + tally_of detector target ins UNKNOWN
   <= Z.of_nat (length ins))%Z.
Proof.
  induction ins as [|i ins IH]; intros target; [cbn; lia|].
  cbn [tally_of length].
  specialize (IH (key_target (key i) target)).
  destruct (key i =? ord_q);
    destruct target;
    repeat match goal with |- context [decide ?P] => destruct (decide P) end;
    try lia; exfalso; intuition congruence.
Qed.

Lemma run_tally ins : forall self C n,
  tally_total (sorted_counts self) ->
  sorted_counts self !! C = Some n ->
  exists self',
    run self ins = Some self' /\
    sorted_counts self' !! C =
    Some (n + tally_of (detector self) (target_color self) ins C)%Z.
Proof.
  induction ins as [|i ins IH]; intros self C n Htot Hn.
  - exists self. cbn. rewrite Z.add_0_r. auto.
  - destruct (tick_total self i Htot) as (self1 & out & stop & Htick & Htot1).
    pose proof (tick_count _ _ _ _ _ C n Htick Hn) as Hc.
    pose proof (tick_stop _ _ _ _ _ Htick) as Hstop.
    destruct (tick_fields _ _ _ _ _ Htick) as (Ht & Hd & _).
    cbn [run tally_of]. rewrite Htick, <- Hstop. destruct stop.
    + exists self1. split; [reflexivity|]. rewrite Hc, Z.add_0_r. reflexivity.
    + destruct (IH self1 C _ Htot1 Hc) as (self' & Hrun & Hc').
      exists self'. split; [exact Hrun|].
      rewrite Hc', Hd, Ht. f_equal. lia.
Qed.

(** X10.  The tally is a function of the frames and keys alone: after any
    passes the entry of each colour is the number of passes, up to and
    including the first with [q], whose detected colour is the target colour
    in force in that pass and is this colour.  So the entries are never
    negative and add up to at most the number of passes. *)
Theorem tally_counts_matching_passes (ins : list inputs) (C : ObjectColor) :
  exists self,
    run init ins = Some self /\
    sorted_counts self !! C = Some (tally_of AIColorDetector.init RED ins C) /\
    (0 <= tally_of AIColorDetector.init RED ins C)%Z /\
    (tally_of AIColorDetector.init RED ins RED + tally_of AIColorDetector.init RED ins GREEN +
     tally_of AIColorDetector.init RED ins BLUE + tally_of AIColorDetector.init RED ins UNKNOWN
     <= Z.of_nat (length ins))%Z.
Proof.
  destruct (run_tally ins init C 0%Z init_tally_total) as (self & Hrun & Hc).
  { destruct C; reflexivity. }
  exists self. split; [exact Hrun|]. split; [exact Hc|].
  pose proof (tally_of_bounds AIColorDetector.init ins RED) as Hb.
  split; [destruct C; lia | lia].
Qed.

(** X11.  [q] ends the loop after its own pass: the pass in which [q] is read
    is carried out in full, and whatever inputs would follow are never used. *)
Theorem run_stops_at_q (self : AutomatedSorter.t) (before after : list inputs) (i : inputs) :
  key i = ord_q ->
  run self (before ++ i :: after) = run self (before ++ [i]) /\
  (forall self' out stop, tick self i = Some (self', out, stop) ->
     stop = true /\ run self (i :: after) = Some self' /\
     target_color self' = target_color self).
Proof.
  intros Hq. split.
  - revert self. induction before as [|j before IH]; intros self.
    + cbn [app run]. destruct (tick self i) as [[[self' out] stop]|] eqn:Htick; [|reflexivity].
      rewrite (tick_stop _ _ _ _ _ Htick), Hq. reflexivity.
    + cbn [app run]. destruct (tick self j) as [[[self' out] [|]]|]; auto.
  - intros self' out stop Htick.
    destruct (tick_fields _ _ _ _ _ Htick) as (Ht & _ & Hs & _).
    rewrite Hq in Hs, Ht. cbn in Hs. subst stop.
    split; [reflexivity|]. split; [cbn [run]; rewrite Htick; reflexivity|].
    exact Ht.
Qed.

Lemma do_calls_app self cs cs' :
  VirtualConveyor.do_calls self (cs ++ cs') =
  VirtualConveyor.do_calls (VirtualConveyor.do_calls self cs) cs'.
Proof. unfold VirtualConveyor.do_calls. apply fold_left_app. Qed.

Lemma run_conveyor ins : forall self,
  tally_total (sorted_counts self) ->
  exists self',
    run self ins = Some self' /\
    conveyor self' = VirtualConveyor.do_calls (conveyor self) (conveyor_calls ins).
Proof.
  induction ins as [|i ins IH]; intros self Htot.
  - exists self. auto.
  - destruct (tick_total self i Htot) as (self1 & out & stop & Htick & Htot1).
    pose proof (tick_stop _ _ _ _ _ Htick) as Hstop.
    destruct (tick_fields _ _ _ _ _ Htick) as (_ & _ & _ & _ & _ & Hconv & _).
    assert (Hone : conveyor self1 =
              VirtualConveyor.do_calls (conveyor self)
                (VirtualConveyor.Update ::
                 match spawn i with
                 | Some (color, rnd) => [VirtualConveyor.AddObject color rnd]
                 | None => []
                 end)).
    { rewrite Hconv. destruct (spawn i) as [[color rnd]|]; reflexivity. }
    cbn [run conveyor_calls]. rewrite Htick, <- Hstop. destruct stop.
    + exists self1. split; [reflexivity|]. rewrite app_nil_r. exact Hone.
    + destruct (IH self1 Htot1) as (self' & Hrun & Hc).
      exists self'. split; [exact Hrun|].
      rewrite Hc, Hone.
      change (VirtualConveyor.Update :: ?a ++ ?b) with ((VirtualConveyor.Update :: a) ++ b).
      rewrite do_calls_app. reflexivity.
Qed.

(** X12.  What the loop does to the conveyor depends on the spawns alone:
    after any passes the conveyor is the fresh conveyor after, for each pass
    up to the first with [q], one [update()] followed by the [add_object] of
    the pass if it spawns.  Frames, target colour and gate play no part, and a
    token spawned in a pass is first advanced in the next. *)
Theorem conveyor_follows_spawns (ins : list inputs) :
  exists self,
    run init ins = Some self /\
    conveyor self = VirtualConveyor.do_calls VirtualConveyor.init (conveyor_calls ins).
Proof. apply (run_conveyor ins init init_tally_total). Qed.

End LoopFacts.

(** ** The gate and the drawing in the loop *)
Section LoopGate.
Import AutomatedSorter.
Context `{OpenCV}.

Lemma gate_commands_binary detector ins : forall target,
  Forall (fun c => c = 0%float \/ c = 1%float) (gate_commands detector target ins).
Proof.
  induction ins as [|i ins IH]; intros target; [constructor|].
  cbn [gate_commands]. constructor.
  - destruct (decide _); auto.
  - destruct (key i =? ord_q); [constructor|apply IH].
Qed.

Lemma drive_cons self c commands :
  drive self (c :: commands) =
  drive (fst (VirtualActuator.update (VirtualActuator.set_position self c))) commands.
Proof. reflexivity. Qed.

Lemma run_gate ins : forall self,
  tally_total (sorted_counts self) ->
  exists self',
    run self ins = Some self' /\
    gate self' = drive (gate self) (gate_commands (detector self) (target_color self) ins).
Proof.
  induction ins as [|i ins IH]; intros self Htot.
  - exists self. auto.
  - destruct (tick_total self i Htot) as (self1 & out & stop & Htick & Htot1).
    pose proof (tick_stop _ _ _ _ _ Htick) as Hstop.
    destruct (tick_fields _ _ _ _ _ Htick) as (Ht & Hd & _ & Hgate & _).
    cbn [run gate_commands]. rewrite Htick, <- Hstop, drive_cons.
    fold (command self (frame i)). rewrite <- Hgate. destruct stop.
    + exists self1. auto.
    + destruct (IH self1 Htot1) as (self' & Hrun & Hg).
      exists self'. split; [exact Hrun|]. rewrite Hg, Hd, Ht. reflexivity.
Qed.

Lemma gate_open_values (p : float) :
  In p gate_positions ->
  exists y, gate_open p = Some y /\ (120 <= y <= 180)%Z /\ (y mod 5 = 0)%Z.
Proof.
  intros Hin. unfold gate_positions in Hin.
  repeat (destruct Hin as [<-|Hin];
          [eexists; split; [vm_compute; reflexivity|]; split; [lia|reflexivity]|]).
  destruct Hin.
Qed.

(** X13.  The gate in the loop follows the matches alone: after any passes it
    is the fresh gate driven by one command per pass up to the first with [q],
    1 when the detected colour is the target colour of the pass and 0
    otherwise; tokens and spawns play no part.  Its position is one of the
    sixteen of [gate_positions], and the end of the gate line,
    [int(175 - gate_pos * 50)], is always defined, a multiple of 5 between 120
    and 180. *)
Theorem gate_follows_matches (ins : list inputs) :
  exists self y,
    run init ins = Some self /\
    gate self = drive VirtualActuator.init (gate_commands AIColorDetector.init RED ins) /\
    In (VirtualActuator.position (gate self)) gate_positions /\
    gate_open (VirtualActuator.position (gate self)) = Some y /\
    (120 <= y <= 180)%Z /\ (y mod 5 = 0)%Z.
Proof.
  destruct (run_gate ins init init_tally_total) as (self & Hrun & Hg).
  assert (Hin : In (VirtualActuator.position (gate self)) gate_positions).
  { rewrite Hg. apply drive_positions; [right; left; reflexivity|].
    apply gate_commands_binary. }
  destruct (gate_open_values _ Hin) as (y & Hy & Hrange & Hmod).
  exists self, y. auto 10.
Qed.

End LoopGate.

Section Drawing.

(** X14.  A token that has travelled [n] halves, [n < 200] (the tokens the
    loop draws), is drawn at [x = 50 + (5 n) // 2]: on the belt, which is
    drawn from x = 50 to x = 550, and never to the left of where it was. *)
Theorem token_drawn_on_belt (color : ObjectColor) (rnd : Z) (n : nat) :
  (n < 200)%nat ->
  object_x (token_at color rnd n) = Some (50 + 5 * Z.of_nat n / 2)%Z /\
  (50 <= 50 + 5 * Z.of_nat n / 2 <= 547)%Z /\
  (50 + 5 * Z.of_nat n / 2 <= 50 + 5 * Z.of_nat (S n) / 2)%Z.
Proof.
  intros Hn. split.
  - assert (Hall : Forall (fun k => int_of_float (50 + halves k * 5)%float =
                                    Some (50 + 5 * Z.of_nat k / 2)%Z) (seq 0 200)).
    { cbn [seq]. repeat (constructor; [vm_compute; reflexivity|]). constructor. }
    rewrite List.Forall_forall in Hall. apply Hall, in_seq. lia.
  - split; [|apply Z.add_le_mono_l, Z.div_le_mono; lia].
    assert (0 <= 5 * Z.of_nat n / 2 < 498)%Z; [|lia].
    split; [apply Z.div_pos; lia|].
    apply Z.div_lt_upper_bound; lia.
Qed.

Lemma token_drawn_on_belt_witness :
  object_x (token_at BLUE 4242 140) = Some (50 + 5 * Z.of_nat 140 / 2)%Z /\
  (50 <= 50 + 5 * Z.of_nat 140 / 2 <= 547)%Z /\
  (50 + 5 * Z.of_nat 140 / 2 <= 50 + 5 * Z.of_nat 141 / 2)%Z.
Proof. apply (token_drawn_on_belt BLUE 4242 140). lia. Defined.

End Drawing.

Lemma detect_ignores_order_and_background_witness :
  @AIColorDetector.red_pixels hsv_images AIColorDetector.init
      ((0, 0, 0) :: patches 3 1 0) =
    @AIColorDetector.red_pixels hsv_images AIColorDetector.init
      (patches 0 1 0 ++ (90, 20, 255) :: patches 3 0 0) /\
  @AIColorDetector.green_pixels hsv_images AIColorDetector.init
      ((0, 0, 0) :: patches 3 1 0) =
    @AIColorDetector.green_pixels hsv_images AIColorDetector.init
      (patches 0 1 0 ++ (90, 20, 255) :: patches 3 0 0) /\
  @AIColorDetector.blue_pixels hsv_images AIColorDetector.init
      ((0, 0, 0) :: patches 3 1 0) =
    @AIColorDetector.blue_pixels hsv_images AIColorDetector.init
      (patches 0 1 0 ++ (90, 20, 255) :: patches 3 0 0) /\
  @AIColorDetector.detect hsv_images AIColorDetector.init
      ((0, 0, 0) :: patches 3 1 0) =
    @AIColorDetector.detect hsv_images AIColorDetector.init
      (patches 0 1 0 ++ (90, 20, 255) :: patches 3 0 0).
Proof.
  apply (@detect_ignores_order_and_background hsv_images AIColorDetector.init
           ((0, 0, 0) :: patches 3 1 0) (patches 0 1 0 ++ (90, 20, 255) :: patches 3 0 0)).
  vm_compute. apply Permutation_sym.
  apply (Permutation_cons_append [(5, 200, 200); (5, 200, 200); (5, 200, 200)] (60, 200, 200)).
Defined.

Lemma dull_frame_unknown_witness :
  @AIColorDetector.red_pixels hsv_images AIColorDetector.init
      [(0, 0, 0); (5, 60, 255); (120, 255, 99)] = 0 /\
  @AIColorDetector.green_pixels hsv_images AIColorDetector.init
      [(0, 0, 0); (5, 60, 255); (120, 255, 99)] = 0 /\
  @AIColorDetector.blue_pixels hsv_images AIColorDetector.init
      [(0, 0, 0); (5, 60, 255); (120, 255, 99)] = 0 /\
  @AIColorDetector.detect hsv_images AIColorDetector.init
      [(0, 0, 0); (5, 60, 255); (120, 255, 99)] = UNKNOWN.
Proof.
  apply (@dull_frame_unknown hsv_images [(0, 0, 0); (5, 60, 255); (120, 255, 99)]);
    [discriminate|].
  intros h s v Hin. cbn in Hin.
  destruct Hin as [Hp|[Hp|[Hp|[]]]]; injection Hp as <- <- <-; lia.
Defined.

Lemma run_stops_at_q_witness :
  @AutomatedSorter.run hsv_images AutomatedSorter.init
    ([@quiet_pass hsv_images (patches 2 0 0)] ++
     {| AutomatedSorter.frame := patches 0 1 0 : @image hsv_images;
        AutomatedSorter.spawn := Some (GREEN, 1234);
        AutomatedSorter.key := 113 |} :: [@quiet_pass hsv_images (patches 4 0 0)]) =
  @AutomatedSorter.run hsv_images AutomatedSorter.init
    ([@quiet_pass hsv_images (patches 2 0 0)] ++
     [{| AutomatedSorter.frame := patches 0 1 0 : @image hsv_images;
         AutomatedSorter.spawn := Some (GREEN, 1234);
         AutomatedSorter.key := 113 |}]).
Proof.
  apply (@run_stops_at_q hsv_images AutomatedSorter.init
           [@quiet_pass hsv_images (patches 2 0 0)]
           [@quiet_pass hsv_images (patches 4 0 0)]
           {| AutomatedSorter.frame := patches 0 1 0 : @image hsv_images;
              AutomatedSorter.spawn := Some (GREEN, 1234);
              AutomatedSorter.key := 113 |}).
  reflexivity.
Defined.

(** ** The tokens of the loop *)
Section LoopTokens.
Import AutomatedSorter.
Context `{OpenCV}.

Lemma update_spawned_like (c : VirtualConveyor.t) :
  (forall tok, In tok (VirtualConveyor.objects c) -> spawned_like tok) ->
  (forall tok, In tok (VirtualConveyor.objects (fst (VirtualConveyor.update c))) ->
               spawned_like tok) /\
  (forall tok, In tok (snd (VirtualConveyor.update c)) -> spawned_like tok).
Proof.
  intros Hall.
  assert (Hobj : forall tok, In tok (VirtualConveyor.objects (fst (VirtualConveyor.update c))) ->
                             spawned_like tok).
  { intros tok Hin. rewrite update_objects in Hin. apply in_map_iff in Hin as (tok0 & <- & Hin0).
    exact (Hall tok0 Hin0). }
  split; [exact Hobj|].
  intros tok Hin. rewrite update_returned in Hin. apply List.filter_In in Hin as [Hin _].
  apply Hobj, Hin.
Qed.

Lemma run_tokens ins : forall self,
  tally_total (sorted_counts self) ->
  (forall tok, In tok (VirtualConveyor.objects (conveyor self)) -> spawned_like tok) ->
  Forall valid_inputs ins ->
  exists self',
    run self ins = Some self' /\
    (forall tok, In tok (VirtualConveyor.objects (conveyor self')) -> spawned_like tok).
Proof.
  induction ins as [|i ins IH]; intros self Htot Hall Hvalid.
  - exists self. auto.
  - apply Forall_cons in Hvalid as [Hi Hvalid].
    destruct (tick_total self i Htot) as (self1 & out & stop & Htick & Htot1).
    destruct (tick_fields _ _ _ _ _ Htick) as (_ & _ & _ & _ & _ & Hconv & _).
    assert (Hall1 : forall tok, In tok (VirtualConveyor.objects (conveyor self1)) ->
                                spawned_like tok).
    { intros tok Hin. rewrite Hconv in Hin.
      destruct (update_spawned_like (conveyor self) Hall) as [Hobj _].
      unfold valid_inputs in Hi. destruct (spawn i) as [[color rnd]|]; [|apply Hobj, Hin].
      cbn [VirtualConveyor.add_object VirtualConveyor.objects] in Hin.
      apply in_app_iff in Hin as [Hin|[<-|[]]]; [apply Hobj, Hin|exact Hi]. }
    cbn [run]. rewrite Htick. destruct stop.
    + exists self1. auto.
    + apply IH; assumption.
Qed.

(** X15.  On the inputs the loop can get (a spawn has one of the three
    colours and an identifier between 1000 and 9999), every token the conveyor
    holds and every token the next pass draws has colour RED, GREEN or BLUE
    and an identifier between 1000 and 9999: the default of
    [color_map.get(..., (255, 255, 255))] is never used. *)
Theorem tokens_keep_spawn_colours (ins : list inputs) :
  Forall valid_inputs ins ->
  exists self,
    run init ins = Some self /\
    (forall tok, In tok (VirtualConveyor.objects (conveyor self)) -> spawned_like tok) /\
    (forall tok, In tok (snd (VirtualConveyor.update (conveyor self))) ->
       spawned_like tok /\
       color_map_get (ObjectToken.color tok) <> (255, 255, 255)%Z /\
       In (color_map_get (ObjectToken.color tok)) camera_colors).
Proof.
  intros Hvalid.
  destruct (run_tokens ins init init_tally_total) as (self & Hrun & Hall);
    [intros tok [] | exact Hvalid |].
  exists self. split; [exact Hrun|]. split; [exact Hall|].
  intros tok Hin.
  destruct (update_spawned_like (conveyor self) Hall) as [_ Hdrawn].
  pose proof (Hdrawn tok Hin) as Hs. split; [exact Hs|].
  destruct Hs as [Hcolor _]. destruct (ObjectToken.color tok); [| | |congruence];
    (split; [discriminate | cbn; tauto]).
Qed.

End LoopTokens.

Lemma tokens_keep_spawn_colours_witness :
  exists self,
    @AutomatedSorter.run hsv_images AutomatedSorter.init
      [ {| AutomatedSorter.frame := patches 0 1 0 : @image hsv_images;
           AutomatedSorter.spawn := Some (GREEN, 1234);
           AutomatedSorter.key := 103 |};
        @quiet_pass hsv_images (patches 0 2 0) ] = Some self /\
    (forall tok, In tok (VirtualConveyor.objects (AutomatedSorter.conveyor self)) ->
       spawned_like tok) /\
    (forall tok, In tok (snd (VirtualConveyor.update (AutomatedSorter.conveyor self))) ->
       spawned_like tok /\
       color_map_get (ObjectToken.color tok) <> (255, 255, 255)%Z /\
       In (color_map_get (ObjectToken.color tok)) camera_colors).
Proof.
  apply (@tokens_keep_spawn_colours hsv_images).
  repeat constructor; cbn; unfold VirtualConveyor.randint; (discriminate || lia).
Defined.
